(** * TinyBase: the command-line tool and the extension lifecycle hooks

    A shallow embedding of [tinybase/cli.py] and [tinybase/extensions/hooks.py]
    and the properties their specification states about them.

    Conventions of the embedding.
    - A Python [str] is a [string] holding the UTF-8 bytes of the text.  The
      pattern of [functions_new] and the separators of [snake_to_camel] are
      ASCII, and UTF-8 is self-synchronising, so matching, splitting and
      substring search on the bytes agree with the same operations on code
      points.
    - A command is a function from the world it runs in (files, database,
      terminal) to its outcome and the world it leaves behind.  [typer.Exit]
      is an outcome, not a crash.
    - Modules of the repository that the two files import but that are not
      part of the sources at hand ([tinybase.auth], [tinybase.config],
      [tinybase.db], [tinybase.utils], [tinybase.extensions.installer]) are
      modelled from the specification and marked as such. *)

From stdpp Require Import gmap strings list.
From Stdlib Require Import ZArith Ascii String DecimalString.

Open Scope string_scope.
Open Scope list_scope.

(** ** Python primitives used by the sources *)

Module Py.

(** The characters Python writes as a double quote and as a line feed. *)
Definition dquote : ascii := ascii_of_nat 34.
Definition newline : ascii := ascii_of_nat 10.
Definition dq : string := String dquote "".
Definition nl : string := String newline "".

(** *** Character classes and case mapping (ASCII) *)

Definition code (c : ascii) : nat := nat_of_ascii c.

Definition in_range (lo hi c : ascii) : bool :=
  (code lo <=? code c)%nat && (code c <=? code hi)%nat.

Definition is_lower (c : ascii) : bool := in_range "a" "z" c.
Definition is_upper (c : ascii) : bool := in_range "A" "Z" c.
Definition is_digit (c : ascii) : bool := in_range "0" "9" c.

(** [str.upper] and [str.lower] on one character.  Bytes outside ASCII
    letters are left alone. *)
Definition to_upper (c : ascii) : ascii :=
  if is_lower c then ascii_of_nat (code c - 32) else c.
Definition to_lower (c : ascii) : ascii :=
  if is_upper c then ascii_of_nat (code c + 32) else c.

Fixpoint map_chars (f : ascii -> ascii) (s : string) : string :=
  match s with
  | EmptyString => EmptyString
  | String c s' => String (f c) (map_chars f s')
  end.

(** [str.capitalize()]: first character upper-cased, the rest lower-cased.
    Exact on ASCII text, which is all that reaches it from [functions new]
    once the name has passed validation. *)
Definition capitalize (s : string) : string :=
  match s with
  | EmptyString => EmptyString
  | String c s' => String (to_upper c) (map_chars to_lower s')
  end.

(** [s.split(sep)] for a one-character separator: the pieces between the
    separators, empty pieces kept, never an empty list. *)
Fixpoint split (sep : ascii) (s : string) : list string :=
  match s with
  | EmptyString => [EmptyString]
  | String c s' =>
      if Ascii.eqb c sep then EmptyString :: split sep s'
      else match split sep s' with
           | w :: ws => String c w :: ws
           | [] => [String c EmptyString]
           end
  end.

(** [sep.join(words)]. *)
Definition join (sep : string) (words : list string) : string :=
  String.concat sep words.

(** [needle in hay]: substring search. *)
Fixpoint contains (needle hay : string) : bool :=
  String.prefix needle hay ||
  match hay with
  | EmptyString => false
  | String _ hay' => contains needle hay'
  end.


(** Truthiness of the values the sources test with [if] and [or]. *)
Definition truthy_str (s : string) : bool :=
  match s with EmptyString => false | _ => true end.
Definition truthy_int (n : Z) : bool := negb (n =? 0)%Z.

(** [x or y] where [x] is an [Optional[T]]: [x] when it is truthy (neither
    [None] nor a falsy value), [y] otherwise. *)
Definition or_else {A} (truthy : A -> bool) (x : option A) (y : A) : A :=
  match x with
  | Some v => if truthy v then v else y
  | None => y
  end.

(** *** Regular expressions, as far as [re.match] is used

    A pattern is a sequence of items.  [re.match] anchors at the start of
    the text only; it does not require the pattern to consume the whole
    text.  Without [re.MULTILINE], the item [^] holds at the start of the
    text, and [$] holds at its end and also just before a line feed that
    is its last character. *)

Inductive atom :=
  | Chr (c : ascii)
  | Rng (lo hi : ascii).

Definition in_atom (c : ascii) (a : atom) : bool :=
  match a with
  | Chr c' => Ascii.eqb c c'
  | Rng lo hi => in_range lo hi c
  end.

(** A bracket expression. *)
Definition in_class (cls : list atom) (c : ascii) : bool :=
  existsb (in_atom c) cls.

Inductive item :=
  | Bol                      (* ^ *)
  | Eol                      (* $ *)
  | One (cls : list atom)    (* [...] *)
  | Star (cls : list atom).  (* [...]* *)

Definition at_eol (s : string) : bool :=
  match s with
  | EmptyString => true
  | String c EmptyString => Ascii.eqb c newline
  | _ => false
  end.

(** Backtracking matcher: does the pattern match at this position?  [bos]
    tells whether the position is the beginning of the text.  A star is
    greedy; since only success is observed, the order of the alternatives
    does not matter. *)
Fixpoint match_here (p : list item) : bool -> string -> bool :=
  match p with
  | [] => fun _ _ => true
  | Bol :: p' => fun bos s => bos && match_here p' bos s
  | Eol :: p' => fun bos s => at_eol s && match_here p' bos s
  | One cls :: p' => fun _ s =>
      match s with
      | EmptyString => false
      | String c s' => in_class cls c && match_here p' false s'
      end
  | Star cls :: p' =>
      fix star (bos : bool) (s : string) {struct s} : bool :=
        match s with
        | EmptyString => match_here p' bos s
        | String c s' =>
            (in_class cls c && star false s') || match_here p' bos s
        end
  end.

(** [re.match(p, s)] read as a truth value. *)
Definition re_match (p : list item) (s : string) : bool := match_here p true s.

End Py.

(** ** The records the commands store *)

Module User.
(** Modelled from the spec: the [User] record of [tinybase.db.models]
    (section 3), which is not part of the sources at hand.  Times are
    seconds on some clock. *)
Record t := {
  email : string;
  password_hash : string;
  is_admin : bool;
  created_at : Z;
  updated_at : Z;
}.
End User.

Module Extension.
(** Modelled from the spec: the [Extension] record of [tinybase.db.models]
    (section 3). *)
Record t := {
  name : string;
  version : string;
  description : string;
  author : string;
  repo_url : string;
  is_enabled : bool;
  created_at : Z;
  updated_at : Z;
}.
End Extension.

Module Settings.
(** Modelled from the spec: the part of [tinybase.config.Settings] that
    [serve] reads (section 4.1). *)
Record t := {
  server_host : string;
  server_port : Z;
  log_level : string;
}.
End Settings.

(** ** The world a command runs in *)

Module Sys.

(** The two tables, once [create_db_and_tables] has created them.  Rows are
    kept in insertion order, which is the order [.first()] reads them in. *)
Record tables := {
  users : list User.t;
  extensions : list Extension.t;
}.

(** One [typer.echo]: to standard output, or with [err=True] to standard
    error. *)
Inductive line :=
  | Out (text : string)
  | Err (text : string).

(** The arguments of one [uvicorn.run] call. *)
Record uvicorn_call := {
  app : string;
  host : string;
  port : Z;
  reload : bool;
  factory : bool;
  uv_log_level : string;
}.

Record world := {
  (** text files by path *)
  files : gmap string string;
  (** the database the engine is bound to; [None] until the tables exist *)
  database : option tables;
  (** directories of installed extensions, by extension name *)
  extension_dirs : gset string;
  (** everything echoed so far, oldest first *)
  terminal : list line;
  (** the answers the user will give to confirmation prompts *)
  answers : list bool;
  (** what [utcnow] reads *)
  clock : Z;
  (** the salt the next [hash_password] draws *)
  entropy : Z;
  (** the process-wide settings *)
  config : Settings.t;
  (** servers started so far *)
  launched : list uvicorn_call;
}.

Definition with_files (f : gmap string string) (w : world) : world :=
  {| files := f; database := database w; extension_dirs := extension_dirs w;
     terminal := terminal w; answers := answers w; clock := clock w;
     entropy := entropy w; config := config w; launched := launched w |}.

Definition with_database (d : option tables) (w : world) : world :=
  {| files := files w; database := d; extension_dirs := extension_dirs w;
     terminal := terminal w; answers := answers w; clock := clock w;
     entropy := entropy w; config := config w; launched := launched w |}.


Definition with_terminal (t : list line) (w : world) : world :=
  {| files := files w; database := database w; extension_dirs := extension_dirs w;
     terminal := t; answers := answers w; clock := clock w;
     entropy := entropy w; config := config w; launched := launched w |}.

Definition with_answers (a : list bool) (w : world) : world :=
  {| files := files w; database := database w; extension_dirs := extension_dirs w;
     terminal := terminal w; answers := a; clock := clock w;
     entropy := entropy w; config := config w; launched := launched w |}.

Definition with_entropy (e : Z) (w : world) : world :=
  {| files := files w; database := database w; extension_dirs := extension_dirs w;
     terminal := terminal w; answers := answers w; clock := clock w;
     entropy := e; config := config w; launched := launched w |}.

Definition with_launched (l : list uvicorn_call) (w : world) : world :=
  {| files := files w; database := database w; extension_dirs := extension_dirs w;
     terminal := terminal w; answers := answers w; clock := clock w;
     entropy := entropy w; config := config w; launched := l |}.

(** How a command ends: it returns, it raises [typer.Exit(code)], or an
    error nobody handles leaves it. *)
Inductive outcome (A : Type) :=
  | Returned (a : A)
  | Exited (code : Z)
  | Crashed (error : string).
Arguments Returned {A} a.
Arguments Exited {A} code.
Arguments Crashed {A} error.

Definition cmd (A : Type) : Type := world -> outcome A * world.

#[global] Instance cmd_ret : MRet cmd := fun A a w => (Returned a, w).

#[global] Instance cmd_bind : MBind cmd := fun A B k m w =>
  match m w with
  | (Returned a, w') => k a w'
  | (Exited c, w') => (Exited c, w')
  | (Crashed e, w') => (Crashed e, w')
  end.

(** [if b: body]. *)
Definition when_ (b : bool) (body : cmd unit) : cmd unit :=
  if b then body else mret tt.

(** The exit code the shell sees. *)
Definition exit_code {A} (r : outcome A * world) : option Z :=
  match fst r with
  | Returned _ => Some 0%Z
  | Exited c => Some c
  | Crashed _ => None
  end.

(** *** typer *)

Definition echo (text : string) : cmd unit :=
  fun w => (Returned tt, with_terminal (terminal w ++ [Out text]) w).

Definition echo_err (text : string) : cmd unit :=
  fun w => (Returned tt, with_terminal (terminal w ++ [Err text]) w).

(** [raise typer.Exit(code)]. *)
Definition typer_exit {A} (code : Z) : cmd A := fun w => (Exited code, w).

(** [typer.confirm(text)]: the next answer of the user.  When the input has
    ended the prompt aborts, which typer turns into exit code 1. *)
Definition typer_confirm (text : string) : cmd bool :=
  fun w =>
    match answers w with
    | a :: rest => (Returned a, with_answers rest w)
    | [] => (Exited 1, w)
    end.

(** *** pathlib and files *)

(** [file.exists()]. *)
Definition path_exists (file : string) : cmd bool :=
  fun w =>
    (Returned match files w !! file with Some _ => true | None => false end, w).

(** [file.read_text()]. *)
Definition read_text (file : string) : cmd string :=
  fun w =>
    match files w !! file with
    | Some content => (Returned content, w)
    | None => (Crashed "FileNotFoundError", w)
    end.

(** [with open(file, "a") as f: f.write(text)]: appends, creating the file
    when there is none. *)
Definition append_text (file text : string) : cmd unit :=
  fun w =>
    (Returned tt,
     with_files (<[file := default "" (files w !! file) +:+ text]> (files w)) w).

(** *** Settings, clock, server *)

Definition settings : cmd Settings.t := fun w => (Returned (config w), w).

(** Modelled from the spec: [tinybase.utils.utcnow], the current time. *)
Definition utcnow : cmd Z := fun w => (Returned (clock w), w).

Definition uvicorn_run (call : uvicorn_call) : cmd unit :=
  fun w => (Returned tt, with_launched (launched w ++ [call]) w).

(** *** Persistence *)

(** Modelled from the spec: [tinybase.db.core.create_db_and_tables]
    (section 4.2) creates the tables that do not exist yet and leaves
    existing ones, rows included, as they are. *)
Definition create_db_and_tables : cmd unit :=
  fun w =>
    match database w with
    | Some _ => (Returned tt, w)
    | None => (Returned tt, with_database (Some {| users := []; extensions := [] |}) w)
    end.

(** A statement run in a session.  Without tables the driver raises. *)
Definition with_tables {A} (q : tables -> A * tables) : cmd A :=
  fun w =>
    match database w with
    | Some t => let '(a, t') := q t in (Returned a, with_database (Some t') w)
    | None => (Crashed "OperationalError: no such table", w)
    end.

(** [session.exec(select(User).where(User.email == email)).first()]: the
    first matching row and where it is stored. *)
Definition first_user (email : string) : cmd (option (nat * User.t)) :=
  with_tables (fun t =>
    (list_find (fun u => User.email u = email) (users t), t)).

(** [session.exec(select(Extension).where(Extension.name == name)).first()]. *)
Definition first_extension (name : string) : cmd (option (nat * Extension.t)) :=
  with_tables (fun t =>
    (list_find (fun e => Extension.name e = name) (extensions t), t)).

(** [session.add(row); session.commit()] for a row read from the table: the
    stored row is overwritten. *)
Definition update_user (i : nat) (u : User.t) : cmd unit :=
  with_tables (fun t =>
    (tt, {| users := <[i := u]> (users t); extensions := extensions t |})).

Definition update_extension (i : nat) (e : Extension.t) : cmd unit :=
  with_tables (fun t =>
    (tt, {| users := users t; extensions := <[i := e]> (extensions t) |})).

(** [session.add(row); session.commit()] for a new row. *)
Definition insert_user (u : User.t) : cmd unit :=
  with_tables (fun t =>
    (tt, {| users := users t ++ [u]; extensions := extensions t |})).

End Sys.

(** ** Authentication and the extension installer, as far as the CLI uses them *)

Module Auth.
(** Modelled from the spec: [tinybase.auth.hash_password] (section 4.4)
    produces a salted digest for storage, never the plaintext (section 3). *)
Class hasher := {
  digest : Z -> string -> string;
  digest_not_plain : forall salt plain, digest salt plain <> plain;
}.
End Auth.

Module Installer.
Import Sys.


End Installer.

(** ** tinybase/cli.py *)

Module Cli.
Import Py Sys.

(** [str(n)] for an [int]. *)
Definition str_of_int (n : Z) : string :=
  DecimalString.NilZero.string_of_int (Z.to_int n).

Definition snake_to_camel (name : string) : string :=
  join "" (map capitalize (split "_" name)).

Definition dq3 : string := dq +:+ dq +:+ dq.

(** The lines of the template of [create_function_boilerplate], the
    placeholders filled in.  The template opens and closes with a line
    feed, hence the empty first and last entries. *)
Definition boilerplate_lines (name description : string) : list string :=
  let camel_name := snake_to_camel name in
  [ "";
    "";
    "# =============================================================================";
    "# Function: " +:+ name;
    "# =============================================================================";
    "";
    "";
    "class " +:+ camel_name +:+ "Input(BaseModel):";
    "    " +:+ dq3 +:+ "Input model for " +:+ name +:+ " function." +:+ dq3;
    "    # TODO: Define input fields";
    "    pass";
    "";
    "";
    "class " +:+ camel_name +:+ "Output(BaseModel):";
    "    " +:+ dq3 +:+ "Output model for " +:+ name +:+ " function." +:+ dq3;
    "    # TODO: Define output fields";
    "    pass";
    "";
    "";
    "@register(";
    "    name=" +:+ dq +:+ name +:+ dq +:+ ",";
    "    description=" +:+ dq +:+ description +:+ dq +:+ ",";
    "    auth=" +:+ dq +:+ "auth" +:+ dq +:+ ",";
    "    input_model=" +:+ camel_name +:+ "Input,";
    "    output_model=" +:+ camel_name +:+ "Output,";
    "    tags=[],";
    ")";
    "def " +:+ name +:+ "(ctx: Context, payload: " +:+ camel_name +:+ "Input) -> "
      +:+ camel_name +:+ "Output:";
    "    " +:+ dq3;
    "    " +:+ description;
    "    ";
    "    TODO: Implement function logic";
    "    " +:+ dq3;
    "    return " +:+ camel_name +:+ "Output()";
    "" ].

Definition create_function_boilerplate (name description : string) : string :=
  join nl (boilerplate_lines name description).

(** [r"^[a-z][a-z0-9_]*$"]. *)
Definition NAME_PATTERN : list item :=
  [ Bol; One [Rng "a" "z"]; Star [Rng "a" "z"; Rng "0" "9"; Chr "_"]; Eol ].

(** [f'name="{name}"'], what the duplicate check looks for. *)
Definition registration_of (name : string) : string :=
  "name=" +:+ dq +:+ name +:+ dq.

Definition DEFAULT_DESCRIPTION : string := "TODO: Add description".
Definition DEFAULT_FILE : string := "functions.py".
Definition DEFAULT_ENV : string := "production".

(** [functions new].  [file] is the path as [str(file)] prints it. *)
Definition functions_new (name description file : string) : cmd unit :=
  (* Validate function name *)
  when_ (negb (re_match NAME_PATTERN name))
    (echo_err "Error: Function name must be lowercase with underscores (snake_case)";;
     typer_exit 1);;
  (* Check if file exists *)
  found ← path_exists file;
  when_ (negb found)
    (echo_err ("Error: Functions file not found: " +:+ file);;
     echo "Run 'tinybase init' first or specify a different file with --file";;
     typer_exit 1);;
  (* Check if function already exists *)
  content ← read_text file;
  when_ (contains (registration_of name) content)
    (echo_err ("Error: Function '" +:+ name +:+ "' already exists in " +:+ file);;
     typer_exit 1);;
  (* Append boilerplate *)
  let boilerplate := create_function_boilerplate name description in
  append_text file boilerplate;;
  echo ("Created function '" +:+ name +:+ "' in " +:+ file);;
  echo ("  Edit the " +:+ snake_to_camel name +:+ "Input and " +:+ snake_to_camel name
        +:+ "Output classes to define your schema").

(** [functions deploy]. *)
Definition functions_deploy (env : string) : cmd unit :=
  echo ("Deploying functions to environment: " +:+ env);;
  echo "";;
  echo "Note: Remote deployment is not yet implemented.";;
  echo "For now, deploy your functions manually by copying them to the server.";;
  typer_exit 1.

(** [serve]. *)
Definition serve (host : option string) (port : option Z) (reload : bool) : cmd unit :=
  config ← settings;
  (* Use CLI options or fall back to config *)
  let bind_host := or_else truthy_str host (Settings.server_host config) in
  let bind_port := or_else truthy_int port (Settings.server_port config) in
  let address := bind_host +:+ ":" +:+ str_of_int bind_port in
  echo ("Starting TinyBase server on " +:+ address);;
  echo ("  API docs: http://" +:+ address +:+ "/docs");;
  echo ("  Admin UI: http://" +:+ address +:+ "/admin");;
  echo "";;
  uvicorn_run {| app := "tinybase.api.app:create_app";
                 Sys.host := bind_host;
                 Sys.port := bind_port;
                 Sys.reload := reload;
                 factory := true;
                 uv_log_level := Settings.log_level config |}.

Section WithHasher.
Context `{Auth.hasher}.

(** [hash_password(password)]: the digest under a fresh salt. *)
Definition hash_password (password : string) : cmd string :=
  fun w => (Returned (Auth.digest (entropy w) password), with_entropy (entropy w + 1) w).

(** [User(email=..., password_hash=..., is_admin=...)]; the timestamps take
    their default, the time of creation. *)
Definition new_user (email hash : string) (admin : bool) : cmd User.t :=
  now ← utcnow;
  mret {| User.email := email; User.password_hash := hash; User.is_admin := admin;
          User.created_at := now; User.updated_at := now |}.

(** [admin add]. *)
Definition admin_add (email password : string) : cmd unit :=
  (* Ensure database exists *)
  create_db_and_tables;;
  (* Check if user already exists *)
  existing ← first_user email;
  match existing with
  | Some (i, existing) =>
      hash ← hash_password password;
      update_user i {| User.email := User.email existing;
                       User.password_hash := hash;
                       User.is_admin := true;
                       User.created_at := User.created_at existing;
                       User.updated_at := User.updated_at existing |};;
      echo ("Updated admin user: " +:+ email)
  | None =>
      hash ← hash_password password;
      user ← new_user email hash true;
      insert_user user;;
      echo ("Created admin user: " +:+ email)
  end.

End WithHasher.

(** [extension.is_enabled = flag; extension.updated_at = now]. *)
Definition set_enabled (flag : bool) (now : Z) (e : Extension.t) : Extension.t :=
  {| Extension.name := Extension.name e;
     Extension.version := Extension.version e;
     Extension.description := Extension.description e;
     Extension.author := Extension.author e;
     Extension.repo_url := Extension.repo_url e;
     Extension.is_enabled := flag;
     Extension.created_at := Extension.created_at e;
     Extension.updated_at := now |}.


(** [extensions enable]. *)
Definition extensions_enable (name : string) : cmd unit :=
  create_db_and_tables;;
  extension ← first_extension name;
  match extension with
  | None =>
      echo_err ("Error: Extension '" +:+ name +:+ "' not found.");;
      typer_exit 1
  | Some (i, extension) =>
      if Extension.is_enabled extension then
        echo ("Extension '" +:+ name +:+ "' is already enabled.")
      else
        now ← utcnow;
        update_extension i (set_enabled true now extension);;
        echo ("✓ Enabled extension: " +:+ name);;
        echo "";;
        echo "Note: Restart the server to load the extension."
  end.

(** [extensions disable]. *)
Definition extensions_disable (name : string) : cmd unit :=
  create_db_and_tables;;
  extension ← first_extension name;
  match extension with
  | None =>
      echo_err ("Error: Extension '" +:+ name +:+ "' not found.");;
      typer_exit 1
  | Some (i, extension) =>
      if negb (Extension.is_enabled extension) then
        echo ("Extension '" +:+ name +:+ "' is already disabled.")
      else
        now ← utcnow;
        update_extension i (set_enabled false now extension);;
        echo ("✓ Disabled extension: " +:+ name);;
        echo "";;
        echo "Note: Restart the server to fully unload the extension."
  end.

End Cli.

(** ** tinybase/cli.py, the commands that call out: listing, installing and
    checking extensions, and the migration commands (the latter also in
    tinybase/cli/db.py, word for word) *)

Module Cli2.
Import Py Sys Cli.

(** [s * n]. *)
Definition times (s : string) (n : nat) : string := String.concat "" (replicate n s).

(** Truthiness of a list and of an optional string. *)
Definition truthy_list {A} (l : list A) : bool :=
  match l with [] => false | _ => true end.
Definition truthy_opt (o : option string) : bool :=
  match o with Some s => truthy_str s | None => false end.

(** [for x in xs: body]. *)
Fixpoint for_each {A} (xs : list A) (body : A -> cmd unit) : cmd unit :=
  match xs with
  | [] => mret tt
  | x :: rest => body x;; for_each rest body
  end.

(** [session.exec(select(Extension)).all()]. *)
Definition all_extensions : cmd (list Extension.t) :=
  with_tables (fun t => (extensions t, t)).

(** What [extensions list] prints for one extension. *)
Definition list_entry (ext : Extension.t) : cmd unit :=
  let status := if Extension.is_enabled ext then "✓ enabled" else "○ disabled" in
  echo (nl +:+ "  " +:+ Extension.name ext +:+ " v" +:+ Extension.version ext
        +:+ "  [" +:+ status +:+ "]");;
  when_ (truthy_str (Extension.description ext))
    (echo ("    " +:+ Extension.description ext));;
  when_ (truthy_str (Extension.author ext))
    (echo ("    Author: " +:+ Extension.author ext));;
  echo ("    Source: " +:+ Extension.repo_url ext).

(** [extensions list]. *)
Definition extensions_list : cmd unit :=
  create_db_and_tables;;
  extensions ← all_extensions;
  if negb (truthy_list extensions) then
    echo "No extensions installed.";;
    echo "";;
    echo "Install an extension with:";;
    echo "  tinybase extensions install <github-url>"
  else
    echo "";;
    echo "Installed Extensions:";;
    echo (times "-" 60);;
    for_each extensions list_entry;;
    echo "".

(** What [install_extension] comes to: the record it created, or an
    [InstallError] with its message. *)
Inductive installation :=
  | Installed (extension : Extension.t)
  | InstallError (message : string).

(** One call of the migration tool: the configuration file and the command
    with its arguments. *)
Inductive alembic_command :=
  | Revision (message : string) (autogenerate : bool)
  | Upgrade (revision : string)
  | Downgrade (revision : string)
  | History
  | Current.

Section CallingOut.

(** [tinybase.extensions.install_extension] and [check_for_updates], which
    are not embedded here, and the [alembic.command] functions.  Nothing is
    assumed about them: they may change the world, fail or exit. *)
Variable install_extension : string -> cmd installation.
Variable check_for_updates : string -> cmd (option (string * string)).
Variable alembic : string -> alembic_command -> cmd unit.

(** [extensions install]. *)
Definition extensions_install (url : string) (yes : bool) : cmd unit :=
  (* Security warning *)
  when_ (negb yes)
    (echo "";;
     echo "⚠️  WARNING: Extensions can execute arbitrary Python code.";;
     echo "   Only install extensions from sources you trust.";;
     echo "";;
     confirm ← typer_confirm ("Install extension from " +:+ url +:+ "?");
     when_ (negb confirm)
       (echo "Installation cancelled.";;
        typer_exit 0));;
  (* Ensure database exists *)
  create_db_and_tables;;
  echo ("Installing extension from: " +:+ url);;
  result ← install_extension url;
  match result with
  | Installed extension =>
      echo "";;
      echo ("✓ Successfully installed: " +:+ Extension.name extension +:+ " v"
            +:+ Extension.version extension);;
      when_ (truthy_str (Extension.description extension))
        (echo ("  " +:+ Extension.description extension));;
      echo "";;
      echo "Note: Restart the server to load the extension."
  | InstallError e =>
      echo_err ("Error: " +:+ e);;
      typer_exit 1
  end.

(** The loop of [extensions check-updates]; the result is the flag
    [updates_available]. *)
Fixpoint check_each (extensions : list (option Extension.t)) (updates_available : bool)
  : cmd bool :=
  match extensions with
  | [] => mret updates_available
  | None :: rest => check_each rest updates_available
  | Some ext :: rest =>
      result ← check_for_updates (Extension.name ext);
      match result with
      | Some (current, latest) =>
          echo ("  " +:+ Extension.name ext +:+ ": " +:+ current +:+ " → " +:+ latest
                +:+ " (update available)");;
          check_each rest true
      | None =>
          echo ("  " +:+ Extension.name ext +:+ ": " +:+ Extension.version ext
                +:+ " (up to date)");;
          check_each rest updates_available
      end
  end.

(** [extensions check-updates]. *)
Definition extensions_check_updates (name : option string) : cmd unit :=
  create_db_and_tables;;
  extensions ←
    (if truthy_opt name then
       found ← first_extension (default "" name);
       match found with
       | None =>
           echo_err ("Error: Extension '" +:+ default "" name +:+ "' not found.");;
           typer_exit 1
       | Some (_, ext) => mret [Some ext]
       end
     else
       all ← all_extensions;
       mret (map Some all));
  if negb (truthy_list extensions) then
    echo "No extensions installed."
  else
    echo "Checking for updates...";;
    echo "";;
    updates_available ← check_each extensions false;
    when_ updates_available
      (echo "";;
       echo "To update an extension, uninstall and reinstall it:";;
       echo "  tinybase extensions uninstall <name>";;
       echo "  tinybase extensions install <github-url>").

(** [db migrate]. *)
Definition db_migrate (message : option string) : cmd unit :=
  let alembic_cfg := "alembic.ini" in
  (if truthy_opt message then
     alembic alembic_cfg (Revision (default "" message) true)
   else
     alembic alembic_cfg (Revision "auto migration" true));;
  echo "Migration created successfully".

(** [db upgrade]. *)
Definition db_upgrade (revision : string) : cmd unit :=
  let alembic_cfg := "alembic.ini" in
  alembic alembic_cfg (Upgrade revision);;
  echo ("Database upgraded to " +:+ revision).

(** [db downgrade]. *)
Definition db_downgrade (revision : string) : cmd unit :=
  let alembic_cfg := "alembic.ini" in
  alembic alembic_cfg (Downgrade revision);;
  echo ("Database downgraded to " +:+ revision).

(** [db history] and [db current]. *)
Definition db_history : cmd unit := alembic "alembic.ini" History.
Definition db_current : cmd unit := alembic "alembic.ini" Current.

End CallingOut.

End Cli2.

(** ** tinybase/extensions/hooks.py *)

Module Hooks.

(** What a [raise] throws: an instance of [Exception], which
    [except Exception] handles, or of another [BaseException] class
    ([KeyboardInterrupt], [SystemExit], [asyncio.CancelledError]), which it
    lets through.  [text] is [str(e)]. *)
Inductive raised :=
  | Exception (text : string)
  | BaseException (text : string).

Section WithState.

(** The state of the process that hooks read and write.  Hooks are taken
    not to register or clear hooks while a runner is iterating. *)
Variable W : Type.

(** What awaiting a result does. *)
Inductive awaited :=
  | Resolved
  | Rejected (e : raised).

(** What [hook()] does: it returns a plain value, it returns something
    with [__await__], or it raises. *)
Inductive called :=
  | Plain
  | Awaitable (resume : W -> awaited * W)
  | Raises (e : raised).

(** A registered callable: a function, with its [__name__]. *)
Record hook := {
  __name__ : string;
  call : W -> called * W;
}.

(** The module's globals, the state hooks act on, and the records the
    module's logger has emitted at level ERROR. *)
Record process := {
  _startup_hooks : list hook;
  _shutdown_hooks : list hook;
  state : W;
  errors : list string;
}.



(** The body of the [try]: call the hook and await the result when it can
    be awaited.  [Some e] when [e] was raised on the way. *)
Definition attempt (h : hook) (w : W) : option raised * W :=
  match call h w with
  | (Plain, w') => (None, w')
  | (Awaitable resume, w') =>
      match resume w' with
      | (Resolved, w'') => (None, w'')
      | (Rejected e, w'') => (Some e, w'')
      end
  | (Raises e, w') => (Some e, w')
  end.

(** The record the [except] clause logs; [phase] is the word startup or
    shutdown. *)
Definition hook_error (phase : string) (h : hook) (text : string) : string :=
  "Error in " +:+ phase +:+ " hook " +:+ __name__ h +:+ ": " +:+ text.

(** The loop the two runners share.  The result is [Some e] when [e] left
    the loop unhandled. *)
Fixpoint run_hooks (phase : string) (hooks : list hook) (w : W) (log : list string)
  : option raised * (W * list string) :=
  match hooks with
  | [] => (None, (w, log))
  | h :: rest =>
      match attempt h w with
      | (None, w') => run_hooks phase rest w' log
      | (Some (Exception text), w') =>
          (* Log but don't fail *)
          run_hooks phase rest w' (log ++ [hook_error phase h text])
      | (Some (BaseException text), w') => (Some (BaseException text), (w', log))
      end
  end.

Definition run_startup_hooks (p : process) : option raised * process :=
  let '(r, (w, log)) := run_hooks "startup" (_startup_hooks p) (state p) (errors p) in
  (r, {| _startup_hooks := _startup_hooks p; _shutdown_hooks := _shutdown_hooks p;
         state := w; errors := log |}).


Definition clear_hooks (p : process) : process :=
  {| _startup_hooks := []; _shutdown_hooks := [];
     state := state p; errors := errors p |}.

(** The state after the given hooks have run one after the other, each on
    the state its predecessor left, whether it failed or not. *)
Definition after (hooks : list hook) (w : W) : W :=
  fold_left (fun w h => snd (attempt h w)) hooks w.

(** The records the [except] clause emits while the given hooks run, oldest
    first. *)
Fixpoint failures (phase : string) (hooks : list hook) (w : W) : list string :=
  match hooks with
  | [] => []
  | h :: rest =>
      match attempt h w with
      | (Some (Exception text), w') => hook_error phase h text :: failures phase rest w'
      | (_, w') => failures phase rest w'
      end
  end.


(** A hook that never raises anything [except Exception] lets through. *)
Definition catchable (h : hook) : Prop :=
  forall w text, fst (attempt h w) <> Some (BaseException text).

End WithState.

Arguments Plain {W}.
Arguments Awaitable {W} resume.
Arguments Raises {W} e.

End Hooks.

(** ** What the pattern of [functions new] is meant to accept *)

Module Names.
Import Py.

Definition is_word (c : ascii) : bool := is_lower c || is_digit c || Ascii.eqb c "_".

Fixpoint all_chars (f : ascii -> bool) (s : string) : bool :=
  match s with
  | EmptyString => true
  | String c s' => f c && all_chars f s'
  end.

(** A lower-case letter followed by lower-case letters, digits and
    underscores: the language of the pattern, [$] read as the end of the
    text. *)
Definition snake_case (s : string) : bool :=
  match s with
  | EmptyString => false
  | String c s' => is_lower c && all_chars is_word s'
  end.

(** Some character of the text satisfies [f]. *)
Fixpoint some_char (f : ascii -> bool) (s : string) : bool :=
  match s with
  | EmptyString => false
  | String c s' => f c || some_char f s'
  end.

Definition is_hyphen (c : ascii) : bool := Ascii.eqb c "-".

(** What the pattern asks of the text after its first character: word
    characters up to the place where [$] holds. *)
Fixpoint tail_ok (s : string) : bool :=
  match s with
  | EmptyString => true
  | String c s' => (is_word c && tail_ok s') || at_eol s
  end.

End Names.

(** ** What the properties observe, and the worlds they are tried on *)

Module Obs.
Import Py Sys.

(** The rows of the two tables; none before the tables exist. *)
Definition users_of (w : world) : list User.t :=
  match database w with Some t => users t | None => [] end.

Definition extensions_of (w : world) : list Extension.t :=
  match database w with Some t => extensions t | None => [] end.

(** The row [.first()] returns for an e-mail address or an extension name,
    with its position. *)
Definition user_row (email : string) (w : world) : option (nat * User.t) :=
  list_find (fun u => User.email u = email) (users_of w).

Definition extension_row (name : string) (w : world) : option (nat * Extension.t) :=
  list_find (fun e => Extension.name e = name) (extensions_of w).

(** How many users carry an e-mail address. *)
Definition users_with (email : string) (w : world) : nat :=
  List.length (filter (fun u => User.email u = email) (users_of w)).

(** The address the last server was started on. *)
Definition bound_to (r : outcome unit * world) : option (string * Z) :=
  match last (launched (snd r)) with
  | Some call => Some (host call, port call)
  | None => None
  end.

(** The row [admin add] writes for an existing user: password hash and
    admin flag replaced, the rest kept. *)
Definition promoted (hash : string) (u : User.t) : User.t :=
  {| User.email := User.email u; User.password_hash := hash; User.is_admin := true;
     User.created_at := User.created_at u; User.updated_at := User.updated_at u |}.

Definition created (email hash : string) (now : Z) : User.t :=
  {| User.email := email; User.password_hash := hash; User.is_admin := true;
     User.created_at := now; User.updated_at := now |}.

Definition demo_settings : Settings.t :=
  {| Settings.server_host := "0.0.0.0"; Settings.server_port := 8000;
     Settings.log_level := "info" |}.

(** A project whose [functions.py] holds [content], before any database. *)
Definition demo_world (content : string) : world :=
  {| files := {[ "functions.py" := content ]}; database := None;
     extension_dirs := ∅; terminal := []; answers := []; clock := 0; entropy := 0;
     config := demo_settings; launched := [] |}.

Definition demo_extension (name : string) (enabled : bool) : Extension.t :=
  {| Extension.name := name; Extension.version := "1.0.0";
     Extension.description := ""; Extension.author := "";
     Extension.repo_url := "https://github.com/owner/" +:+ name;
     Extension.is_enabled := enabled;
     Extension.created_at := 10; Extension.updated_at := 10 |}.

(** A project with the given extensions installed, at time 500, whose user
    will answer prompts as listed. *)
Definition demo_installed (exts : list Extension.t) (replies : list bool) : world :=
  {| files := ∅; database := Some {| users := []; extensions := exts |};
     extension_dirs := list_to_set (map Extension.name exts);
     terminal := []; answers := replies; clock := 500; entropy := 0;
     config := demo_settings; launched := [] |}.

End Obs.

(** ** Hooks to try the runners on

    The state is a journal: every hook notes its name when it is called. *)

Module HookDemo.
Import Hooks.

(** A plain function. *)
Definition note (name : string) : hook (list string) :=
  {| __name__ := name; call := fun w => (Plain, w ++ [name]) |}.



(** A function that calls [sys.exit]. *)
Definition quitting (name : string) : hook (list string) :=
  {| __name__ := name; call := fun w => (Raises (BaseException "1"), w ++ [name]) |}.



End HookDemo.

(** * Properties *)

(** ** Strings and patterns *)

Module PyFacts.
Import Py Names.

#[local] Arguments String.append : simpl nomatch.


Lemma append_empty_r (a : string) : a +:+ "" = a.
Proof. induction a as [|x a IH]; simpl; [reflexivity | now rewrite IH]. Qed.

Lemma length_append (a b : string) :
  String.length (a +:+ b) = String.length a + String.length b.
Proof. induction a as [|x a IH]; simpl; [reflexivity | now rewrite IH]. Qed.

Lemma nonempty_prefix_differs (a p : string) : a <> "" -> a +:+ p <> p.
Proof.
  intros Ha E. apply (f_equal String.length) in E. rewrite length_append in E.
  destruct a; [now apply Ha|]. simpl in E. lia.
Qed.








End PyFacts.

(** ** The name pattern *)

Module NameFacts.
Import Py Names PyFacts Cli.

#[local] Arguments String.append : simpl nomatch.

Lemma in_class_word (c : ascii) :
  in_class [Rng "a" "z"; Rng "0" "9"; Chr "_"] c = is_word c.
Proof.
  unfold in_class, is_word, is_lower, is_digit; simpl.
  now rewrite orb_false_r, orb_assoc.
Qed.

Lemma in_class_lower (c : ascii) : in_class [Rng "a" "z"] c = is_lower c.
Proof. unfold in_class, is_lower; simpl. apply orb_false_r. Qed.

Lemma match_tail (bos : bool) (s : string) :
  match_here [Star [Rng "a" "z"; Rng "0" "9"; Chr "_"]; Eol] bos s = tail_ok s.
Proof.
  revert bos; induction s as [|c s IH]; intros bos.
  - reflexivity.
  - change (match_here [Star [Rng "a" "z"; Rng "0" "9"; Chr "_"]; Eol] bos (String c s))
      with (in_class [Rng "a" "z"; Rng "0" "9"; Chr "_"] c
              && match_here [Star [Rng "a" "z"; Rng "0" "9"; Chr "_"]; Eol] false s
            || at_eol (String c s) && true).
    rewrite IH, in_class_word, andb_true_r. reflexivity.
Qed.

Lemma re_match_name (s : string) :
  re_match NAME_PATTERN s =
  match s with
  | EmptyString => false
  | String c s' => is_lower c && tail_ok s'
  end.
Proof.
  destruct s as [|c s]; [reflexivity|].
  change (re_match NAME_PATTERN (String c s))
    with (true && (in_class [Rng "a" "z"] c
            && match_here [Star [Rng "a" "z"; Rng "0" "9"; Chr "_"]; Eol] false s)).
  now rewrite match_tail, in_class_lower.
Qed.

Lemma newline_not_word : is_word newline = false.
Proof. reflexivity. Qed.

Lemma tail_ok_spec (s : string) :
  tail_ok s = true <->
  all_chars is_word s = true \/ exists s', s = s' +:+ nl /\ all_chars is_word s' = true.
Proof.
  induction s as [|c s IH]; simpl.
  - split; auto.
  - rewrite orb_true_iff, andb_true_iff, IH. split.
    + intros [[Hc [Hs|(s' & -> & Hs')]]|He].
      * left. now rewrite Hc, Hs.
      * right. exists (String c s'). simpl. now rewrite Hc, Hs'.
      * destruct s; [|discriminate]. apply Ascii.eqb_eq in He as ->.
        right. now exists "".
    + intros [H|(s' & E & Hs')].
      * apply andb_true_iff in H as [Hc Hs]. left; auto.
      * destruct s' as [|c' s']; simpl in E; injection E as -> ->.
        -- right. reflexivity.
        -- simpl in Hs'. apply andb_true_iff in Hs' as [Hc Hs].
           left. split; [exact Hc|]. right. now exists s'.
Qed.

(** [re.match] accepts the snake-case names and, because [$] also holds
    before a final line feed, the same names followed by one line feed;
    nothing else. *)
Lemma re_match_name_spec (s : string) :
  re_match NAME_PATTERN s = true <->
  snake_case s = true \/ exists s', s = s' +:+ nl /\ snake_case s' = true.
Proof.
  rewrite re_match_name. destruct s as [|c s]; simpl.
  - split; [discriminate|]. intros [|(s' & E & H)]; [discriminate|].
    destruct s'; [discriminate H|discriminate E].
  - rewrite andb_true_iff, tail_ok_spec. split.
    + intros [Hc [Hs|(s' & -> & Hs')]].
      * left. now rewrite Hc, Hs.
      * right. exists (String c s'). simpl. now rewrite Hc, Hs'.
    + intros [H|(s' & E & H)].
      * apply andb_true_iff in H as [Hc Hs]. auto.
      * destruct s' as [|c' s']; [discriminate H|].
        simpl in E; injection E as -> ->. simpl in H.
        apply andb_true_iff in H as [Hc Hs]. split; [exact Hc|]. right. now exists s'.
Qed.

Lemma snake_case_matches (s : string) :
  snake_case s = true -> re_match NAME_PATTERN s = true.
Proof. intros H. apply re_match_name_spec. now left. Qed.

(** A character that is neither a word character nor a line feed rules a
    name out, wherever it stands. *)
Lemma tail_ok_rejects (f : ascii -> bool) (s : string) :
  (forall c, f c = true -> is_word c = false /\ c <> newline) ->
  some_char f s = true -> tail_ok s = false.
Proof.
  intros Hf. induction s as [|c s IH]; simpl; [discriminate|].
  intros H. apply orb_true_iff in H as [Hc|Hs].
  - destruct (Hf c Hc) as [-> Hn]. simpl.
    destruct s; [|reflexivity]. now apply Ascii.eqb_neq.
  - rewrite (IH Hs), andb_false_r. simpl.
    destruct s; [discriminate Hs|reflexivity].
Qed.

Lemma re_match_rejects (f : ascii -> bool) (s : string) :
  (forall c, f c = true -> is_word c = false /\ c <> newline) ->
  some_char f s = true -> re_match NAME_PATTERN s = false.
Proof.
  intros Hf H. rewrite re_match_name. destruct s as [|c s]; [reflexivity|].
  simpl in H. apply orb_true_iff in H as [Hc|Hs].
  - destruct (Hf c Hc) as [Hw _]. unfold is_word in Hw.
    apply orb_false_iff in Hw as [Hw _]. apply orb_false_iff in Hw as [-> _].
    reflexivity.
  - rewrite (tail_ok_rejects f s Hf Hs). apply andb_false_r.
Qed.

Lemma upper_or_hyphen_not_word (c : ascii) :
  is_upper c || is_hyphen c = true -> is_word c = false /\ c <> newline.
Proof.
  destruct c as [[] [] [] [] [] [] [] []]; vm_compute; intros H;
    first [discriminate H | split; [reflexivity | discriminate]].
Qed.

Example snake_to_camel_add_numbers : snake_to_camel "add_numbers" = "AddNumbers".
Proof. reflexivity. Qed.

Example snake_to_camel_keeps_digits : snake_to_camel "v2_sync_" = "V2Sync".
Proof. reflexivity. Qed.

Example add_numbers_is_valid : re_match NAME_PATTERN "add_numbers" = true.
Proof. reflexivity. Qed.

Example leading_digit_is_invalid : re_match NAME_PATTERN "2fast" = false.
Proof. reflexivity. Qed.

(** The one way in which [re.match] is wider than snake case. *)
Example final_line_feed_is_accepted :
  snake_case ("report" +:+ nl) = false /\ re_match NAME_PATTERN ("report" +:+ nl) = true.
Proof. split; reflexivity. Qed.

End NameFacts.

(** ** functions new *)

Module FunctionsFacts.
Import Py Names PyFacts NameFacts Sys Cli Obs.

Lemma bind_returned {A B} (m : cmd A) (k : A -> cmd B) (w w' : world) (a : A) :
  m w = (Returned a, w') -> (m ≫= k) w = k a w'.
Proof. intros E. unfold mbind, cmd_bind. now rewrite E. Qed.

Lemma bind_exited {A B} (m : cmd A) (k : A -> cmd B) (w w' : world) (c : Z) :
  m w = (Exited c, w') -> (m ≫= k) w = (Exited c, w').
Proof. intros E. unfold mbind, cmd_bind. now rewrite E. Qed.

Ltac run :=
  cbv beta iota zeta delta
    [mbind cmd_bind mret cmd_ret when_ negb
     echo echo_err typer_exit typer_confirm path_exists read_text append_text
     settings utcnow uvicorn_run create_db_and_tables with_tables
     first_user first_extension update_user update_extension insert_user].

Lemma functions_new_rejects (name description file : string) (w : world) :
  re_match NAME_PATTERN name = false ->
  functions_new name description file w =
  (Exited 1,
   with_terminal
     (terminal w ++
        [Err "Error: Function name must be lowercase with underscores (snake_case)"]) w).
Proof.
  intros Hre. unfold functions_new. rewrite Hre. 
  erewrite bind_exited; [reflexivity|]. reflexivity.
Qed.

Lemma functions_new_valid (name description file : string) (w : world) :
  re_match NAME_PATTERN name = true ->
  functions_new name description file w =
  match files w !! file with
  | None =>
      (Exited 1,
       with_terminal
         (terminal w ++ [Err ("Error: Functions file not found: " +:+ file);
                         Out "Run 'tinybase init' first or specify a different file with --file"]) w)
  | Some content =>
      if contains (registration_of name) content then
        (Exited 1,
         with_terminal
           (terminal w ++ [Err ("Error: Function '" +:+ name +:+ "' already exists in " +:+ file)]) w)
      else
        (Returned tt,
         with_terminal
           (terminal w ++
              [Out ("Created function '" +:+ name +:+ "' in " +:+ file);
               Out ("  Edit the " +:+ snake_to_camel name +:+ "Input and "
                    +:+ snake_to_camel name +:+ "Output classes to define your schema")])
           (with_files
              (<[file := content +:+ create_function_boilerplate name description]> (files w)) w))
  end.
Proof.
  intros Hre. unfold functions_new. rewrite Hre.
  run. destruct (files w !! file) as [content|] eqn:E; run; rewrite ?E; run.
  - destruct (contains (registration_of name) content); run.
    + reflexivity.
    + unfold with_terminal, with_files; simpl. rewrite E, <- app_assoc. reflexivity.
  - unfold with_terminal; simpl. rewrite <- app_assoc. reflexivity.
Qed.

Lemma functions_new_valid_witness :
  functions_new "report" DEFAULT_DESCRIPTION "missing.py" (demo_world "")
  = (Exited 1,
     with_terminal
       [Err "Error: Functions file not found: missing.py";
        Out "Run 'tinybase init' first or specify a different file with --file"]
       (demo_world "")).
Proof.
  apply (functions_new_valid "report" DEFAULT_DESCRIPTION "missing.py" (demo_world "")).
  reflexivity.
Defined.







(** C4.  A name that holds an upper-case letter or a hyphen, for instance
    Add-Numbers, and more generally any name [re.match] finds no match of
    the pattern for, fails validation: [functions new] reports the error,
    exits with code 1 and leaves every file as it was.  Matching is the
    matching of Python, for which [$] also holds before a final line feed
    (see [re_match_name_spec]). *)
Theorem functions_new_invalid_name (name description file : string) (w : world) :
  some_char (fun c => is_upper c || is_hyphen c) name = true \/
  re_match NAME_PATTERN name = false ->
  functions_new name description file w =
    (Exited 1,
     with_terminal
       (terminal w ++
          [Err "Error: Function name must be lowercase with underscores (snake_case)"]) w)
  /\ exit_code (functions_new name description file w) = Some 1%Z
  /\ files (snd (functions_new name description file w)) = files w.
Proof.
  intros H.
  assert (Hre : re_match NAME_PATTERN name = false).
  { destruct H as [H|H]; [|exact H].
    eapply re_match_rejects; [|exact H]. apply upper_or_hyphen_not_word. }
  rewrite (functions_new_rejects _ _ _ _ Hre). repeat split.
Qed.

Lemma functions_new_invalid_name_witness :
  exit_code (functions_new "Add-Numbers" DEFAULT_DESCRIPTION DEFAULT_FILE
               (demo_world "# functions")) = Some 1%Z.
Proof.
  apply (functions_new_invalid_name "Add-Numbers" DEFAULT_DESCRIPTION DEFAULT_FILE
           (demo_world "# functions")).
  left. reflexivity.
Defined.

(** C8.  The duplicate check is a substring search over the whole text of
    the file: whenever the text [name=<name>] occurs anywhere in it, in a
    comment or a string as well as in a registration, the command exits
    with code 1 and leaves the files as they were; for a name that passed
    validation it does so as a duplicate, with the already-exists error. *)
Theorem functions_new_duplicate_is_substring
    (name description file content : string) (w : world) :
  files w !! file = Some content ->
  contains (registration_of name) content = true ->
  exit_code (functions_new name description file w) = Some 1%Z
  /\ files (snd (functions_new name description file w)) = files w
  /\ (re_match NAME_PATTERN name = true ->
      functions_new name description file w =
        (Exited 1,
         with_terminal
           (terminal w ++
              [Err ("Error: Function '" +:+ name +:+ "' already exists in " +:+ file)]) w)).
Proof.
  intros Hfile Hdup.
  destruct (re_match NAME_PATTERN name) eqn:Hre.
  - rewrite (functions_new_valid _ _ _ _ Hre), Hfile, Hdup. repeat split.
  - rewrite (functions_new_rejects _ _ _ _ Hre). repeat split. discriminate.
Qed.

Lemma functions_new_duplicate_is_substring_witness :
  let w := demo_world ("# TODO: register name=" +:+ dq +:+ "report" +:+ dq +:+ " one day") in
  exit_code (functions_new "report" DEFAULT_DESCRIPTION DEFAULT_FILE w) = Some 1%Z
  /\ files (snd (functions_new "report" DEFAULT_DESCRIPTION DEFAULT_FILE w)) = files w.
Proof.
  intros w.
  destruct (functions_new_duplicate_is_substring "report" DEFAULT_DESCRIPTION DEFAULT_FILE
              ("# TODO: register name=" +:+ dq +:+ "report" +:+ dq +:+ " one day") w)
    as (Hcode & Hfiles & _).
  - reflexivity.
  - reflexivity.
  - split; [exact Hcode | exact Hfiles].
Defined.



End FunctionsFacts.

(** ** deploy, serve, admin and extension commands *)

Module CliFacts.
Import Py Names PyFacts NameFacts Sys Cli Obs FunctionsFacts.

Lemma with_database_same (w : world) (t : tables) :
  database w = Some t -> with_database (Some t) w = w.
Proof. destruct w; simpl; intros ->; reflexivity. Qed.

(** C7.  Whatever the value of [--env], [functions deploy] prints its four
    lines of guidance and raises [typer.Exit(1)]: it neither returns
    normally nor ends in an unhandled error, and it touches nothing but the
    terminal. *)
Theorem functions_deploy_always_exits_1 (env : string) (w : world) :
  functions_deploy env w =
  (Exited 1,
   with_terminal
     (terminal w ++
        [ Out ("Deploying functions to environment: " +:+ env);
          Out "";
          Out "Note: Remote deployment is not yet implemented.";
          Out "For now, deploy your functions manually by copying them to the server." ])
     w).
Proof.
  unfold functions_deploy. run.
  unfold with_terminal; simpl. rewrite <- !app_assoc. reflexivity.
Qed.

Lemma serve_runs (host : option string) (port : option Z) (reload : bool) (w : world) :
  let bind_host := or_else truthy_str host (Settings.server_host (config w)) in
  let bind_port := or_else truthy_int port (Settings.server_port (config w)) in
  fst (serve host port reload w) = Returned tt /\
  launched (snd (serve host port reload w)) =
    (launched w ++
      [ {| app := "tinybase.api.app:create_app"; Sys.host := bind_host;
           Sys.port := bind_port; Sys.reload := reload; factory := true;
           uv_log_level := Settings.log_level (config w) |} ])%list.
Proof.
  unfold serve. run. split; reflexivity.
Qed.

Lemma bound_to_serve (host : option string) (port : option Z) (reload : bool) (w : world) :
  bound_to (serve host port reload w) =
  Some (or_else truthy_str host (Settings.server_host (config w)),
        or_else truthy_int port (Settings.server_port (config w))).
Proof.
  unfold bound_to. destruct (serve_runs host port reload w) as [_ ->].
  rewrite last_snoc. reflexivity.
Qed.

(** C9.  [serve] takes the host and the port from the command line only
    when the value given there is truthy.  With [--port 0] the server is
    bound to the configured port, with an empty [--host] to the configured
    host; an option that was not given falls back in the same way, and any
    other value is used as given. *)
Theorem serve_falls_back_unless_truthy
    (host : option string) (port : option Z) (reload : bool) (w : world) :
  let configured_host := Settings.server_host (config w) in
  let configured_port := Settings.server_port (config w) in
  bound_to (serve host (Some 0%Z) reload w)
    = Some (or_else truthy_str host configured_host, configured_port)
  /\ bound_to (serve (Some "") port reload w)
    = Some (configured_host, or_else truthy_int port configured_port)
  /\ bound_to (serve host port reload w)
    = Some (match host with
            | Some (String c h) => String c h
            | Some EmptyString | None => configured_host
            end,
            match port with
            | Some p => if (p =? 0)%Z then configured_port else p
            | None => configured_port
            end).
Proof.
  intros configured_host configured_port. rewrite !bound_to_serve.
  split; [reflexivity|]. split; [reflexivity|].
  destruct host as [[|c h]|], port as [p|]; simpl; try reflexivity;
    unfold truthy_int; destruct (p =? 0)%Z; reflexivity.
Qed.

(** *** extensions enable, disable, uninstall *)

Lemma create_db_keeps_rows (w : world) :
  extensions_of (snd (create_db_and_tables w)) = extensions_of w
  /\ users_of (snd (create_db_and_tables w)) = users_of w.
Proof.
  unfold create_db_and_tables, extensions_of, users_of.
  destruct (database w) eqn:E; simpl; rewrite ?E; split; reflexivity.
Qed.


Lemma create_db_existing (w : world) (t : tables) :
  database w = Some t -> create_db_and_tables w = (Returned tt, w).
Proof. intros E. unfold create_db_and_tables. now rewrite E. Qed.

(** What the two toggles do, case by case. *)
Lemma extensions_enable_runs (name : string) (w : world) :
  let w0 := snd (create_db_and_tables w) in
  extensions_enable name w =
  match extension_row name w with
  | None =>
      (Exited 1,
       with_terminal (terminal w ++ [Err ("Error: Extension '" +:+ name +:+ "' not found.")]) w0)
  | Some (i, e) =>
      if Extension.is_enabled e then
        (Returned tt,
         with_terminal
           (terminal w ++ [Out ("Extension '" +:+ name +:+ "' is already enabled.")]) w0)
      else
        (Returned tt,
         with_terminal
           (terminal w ++ [Out ("✓ Enabled extension: " +:+ name); Out "";
                           Out "Note: Restart the server to load the extension."])
           (with_database
              (Some {| users := users_of w;
                       extensions := <[i := set_enabled true (clock w) e]> (extensions_of w) |})
              w0))
  end.
Proof.
  destruct w as [fs [[us es]|] dirs term ans clk ent cfg srv];
    unfold extensions_enable, extension_row, extensions_of, users_of; run; simpl;
    [|reflexivity].
  destruct (list_find _ es) as [[i e]|]; simpl; [|reflexivity].
  destruct (Extension.is_enabled e); simpl; [reflexivity|].
  unfold with_terminal, with_database; simpl. rewrite <- !app_assoc. reflexivity.
Qed.

Lemma extensions_disable_runs (name : string) (w : world) :
  let w0 := snd (create_db_and_tables w) in
  extensions_disable name w =
  match extension_row name w with
  | None =>
      (Exited 1,
       with_terminal (terminal w ++ [Err ("Error: Extension '" +:+ name +:+ "' not found.")]) w0)
  | Some (i, e) =>
      if Extension.is_enabled e then
        (Returned tt,
         with_terminal
           (terminal w ++ [Out ("✓ Disabled extension: " +:+ name); Out "";
                           Out "Note: Restart the server to fully unload the extension."])
           (with_database
              (Some {| users := users_of w;
                       extensions := <[i := set_enabled false (clock w) e]> (extensions_of w) |})
              w0))
      else
        (Returned tt,
         with_terminal
           (terminal w ++ [Out ("Extension '" +:+ name +:+ "' is already disabled.")]) w0)
  end.
Proof.
  destruct w as [fs [[us es]|] dirs term ans clk ent cfg srv];
    unfold extensions_disable, extension_row, extensions_of, users_of; run; simpl;
    [|reflexivity].
  destruct (list_find _ es) as [[i e]|]; simpl; [|reflexivity].
  destruct (Extension.is_enabled e); simpl; [|reflexivity].
  unfold with_terminal, with_database; simpl. rewrite <- !app_assoc. reflexivity.
Qed.

(** C5.  For an installed extension that is already enabled,
    [extensions enable] reports so and returns; the world it leaves differs
    from the one it started in by that one line on the terminal, so the
    record, its [updated_at] included, is untouched.  [extensions disable]
    does the same for an extension that is already disabled. *)
Theorem toggle_to_current_state_changes_nothing
    (name : string) (w : world) (i : nat) (e : Extension.t) :
  extension_row name w = Some (i, e) ->
  (Extension.is_enabled e = true ->
     extensions_enable name w =
       (Returned tt,
        with_terminal
          (terminal w ++ [Out ("Extension '" +:+ name +:+ "' is already enabled.")]) w))
  /\ (Extension.is_enabled e = false ->
     extensions_disable name w =
       (Returned tt,
        with_terminal
          (terminal w ++ [Out ("Extension '" +:+ name +:+ "' is already disabled.")]) w)).
Proof.
  intros Hrow.
  assert (Hdb : exists t, database w = Some t).
  { unfold extension_row, extensions_of in Hrow.
    destruct (database w) as [t|]; [now exists t | discriminate Hrow]. }
  destruct Hdb as [t Hdb]. split; intros Hflag.
  - rewrite extensions_enable_runs, Hrow, Hflag, (create_db_existing w t Hdb). reflexivity.
  - rewrite extensions_disable_runs, Hrow, Hflag, (create_db_existing w t Hdb). reflexivity.
Qed.

Lemma toggle_to_current_state_changes_nothing_witness :
  extensions_enable "mailer" (demo_installed [demo_extension "mailer" true] [])
  = (Returned tt,
     with_terminal [Out "Extension 'mailer' is already enabled."]
       (demo_installed [demo_extension "mailer" true] []))
  /\ extensions_disable "mailer" (demo_installed [demo_extension "mailer" false] [])
  = (Returned tt,
     with_terminal [Out "Extension 'mailer' is already disabled."]
       (demo_installed [demo_extension "mailer" false] [])).
Proof.
  split.
  - apply (toggle_to_current_state_changes_nothing "mailer"
             (demo_installed [demo_extension "mailer" true] [])
             0 (demo_extension "mailer" true)); reflexivity.
  - apply (toggle_to_current_state_changes_nothing "mailer"
             (demo_installed [demo_extension "mailer" false] [])
             0 (demo_extension "mailer" false)); reflexivity.
Defined.







(** *** admin add *)

Section AdminAdd.
Context `{Auth.hasher}.

Lemma admin_add_runs (email password : string) (w : world) :
  let hash := Auth.digest (entropy w) password in
  admin_add email password w =
  match user_row email w with
  | Some (i, u) =>
      (Returned tt,
       with_terminal (terminal w ++ [Out ("Updated admin user: " +:+ email)])
         (with_database
            (Some {| users := <[i := promoted hash u]> (users_of w);
                     extensions := extensions_of w |})
            (with_entropy (entropy w + 1) w)))
  | None =>
      (Returned tt,
       with_terminal (terminal w ++ [Out ("Created admin user: " +:+ email)])
         (with_database
            (Some {| users := users_of w ++ [created email hash (clock w)];
                     extensions := extensions_of w |})
            (with_entropy (entropy w + 1) w)))
  end.
Proof.
  destruct w as [fs [[us es]|] dirs term ans clk ent cfg srv];
    unfold admin_add, hash_password, new_user, user_row, users_of, extensions_of;
    run; simpl.
  - destruct (list_find _ us) as [[i u]|]; reflexivity.
  - reflexivity.
Qed.

Lemma users_after_admin_add (email password : string) (w : world) :
  users_of (snd (admin_add email password w)) =
  match user_row email w with
  | Some (i, u) => <[i := promoted (Auth.digest (entropy w) password) u]> (users_of w)
  | None => (users_of w ++ [created email (Auth.digest (entropy w) password) (clock w)])%list
  end.
Proof.
  rewrite admin_add_runs. destruct (user_row email w) as [[i u]|]; reflexivity.
Qed.

Lemma filter_absent {A} (P : A -> Prop) `{forall x, Decision (P x)} (l : list A) :
  list_find P l = None -> filter P l = [].
Proof.
  intros Hn. apply list_find_None in Hn.
  induction Hn as [|x l Hx _ IH]; [reflexivity|].
  now rewrite filter_cons_False.
Qed.

Lemma filter_insert_same {A} (P : A -> Prop) `{forall x, Decision (P x)}
    (l : list A) (i : nat) (x y : A) :
  l !! i = Some x -> P x -> P y ->
  List.length (filter P (<[i := y]> l)) = List.length (filter P l).
Proof.
  revert i. induction l as [|z l IH]; intros [|i] Hl Hx Hy; simpl in *;
    try discriminate.
  - injection Hl as ->. now rewrite !filter_cons_True.
  - rewrite !filter_cons. destruct (decide (P z)); simpl; rewrite (IH i); auto.
Qed.

Lemma entropy_after_admin_add (email password : string) (w : world) :
  entropy (snd (admin_add email password w)) = (entropy w + 1)%Z.
Proof.
  rewrite admin_add_runs. destruct (user_row email w) as [[i u]|]; reflexivity.
Qed.

(** C3.  [admin add] returns normally.  For an e-mail address without a
    user it appends one row with that address, [is_admin] set and the digest
    of the password, which differs from the password, so that exactly one
    user carries the address; run again for the same address it overwrites
    the hash of that row and still leaves exactly one.  For an address that
    has a user it overwrites the password hash and sets [is_admin] on the
    row [.first()] returned, adds no row, and leaves the number of users
    with that address as it was. *)
Theorem admin_add_creates_or_updates (email password again : string) (w : world) :
  let w1 := snd (admin_add email password w) in
  let w2 := snd (admin_add email again w1) in
  fst (admin_add email password w) = Returned tt
  /\ (user_row email w = None ->
      exists u,
        users_of w1 = (users_of w ++ [u])%list
        /\ User.email u = email
        /\ User.is_admin u = true
        /\ User.password_hash u = Auth.digest (entropy w) password
        /\ User.password_hash u <> password
        /\ users_with email w1 = 1
        /\ users_of w2
           = (users_of w ++ [promoted (Auth.digest (entropy w + 1) again) u])%list
        /\ users_with email w2 = 1)
  /\ (forall i u, user_row email w = Some (i, u) ->
      users_of w1 = <[i := promoted (Auth.digest (entropy w) password) u]> (users_of w)
      /\ users_of w1 !! i = Some (promoted (Auth.digest (entropy w) password) u)
      /\ List.length (users_of w1) = List.length (users_of w)
      /\ users_with email w1 = users_with email w).
Proof.
  intros w1 w2. split; [|split].
  - rewrite admin_add_runs. destruct (user_row email w) as [[i u]|]; reflexivity.
  - intros Hnew.
    assert (H1 : users_of w1
                 = (users_of w ++ [created email (Auth.digest (entropy w) password) (clock w)])%list).
    { subst w1. rewrite users_after_admin_add, Hnew. reflexivity. }
    assert (Hrow : user_row email w1
                   = Some (List.length (users_of w),
                           created email (Auth.digest (entropy w) password) (clock w))).
    { unfold user_row. rewrite H1, list_find_app_r by exact Hnew.
      cbn. rewrite decide_True by reflexivity. cbn. reflexivity. }
    exists (created email (Auth.digest (entropy w) password) (clock w)).
    split; [exact H1|]. do 3 (split; [reflexivity|]).
    split; [apply Auth.digest_not_plain|].
    assert (Hcount : forall us v, list_find (fun u => User.email u = email) us = None ->
              User.email v = email ->
              List.length (filter (fun u => User.email u = email) (us ++ [v])) = 1).
    { intros us v Hn Hv. rewrite filter_app, (filter_absent _ _ Hn).
      rewrite filter_cons_True by exact Hv. reflexivity. }
    split; [unfold users_with; rewrite H1; now apply Hcount|].
    assert (H2 : users_of w2
                 = (users_of w ++ [promoted (Auth.digest (entropy w + 1) again)
                                     (created email (Auth.digest (entropy w) password) (clock w))])%list).
    { subst w2. rewrite users_after_admin_add, Hrow, H1.
      subst w1. rewrite entropy_after_admin_add.
      rewrite insert_app_r_alt by reflexivity. now rewrite Nat.sub_diag. }
    split; [exact H2|].
    unfold users_with. rewrite H2. now apply Hcount.
  - intros i u Hrow.
    assert (H1 : users_of w1
                 = <[i := promoted (Auth.digest (entropy w) password) u]> (users_of w)).
    { subst w1. rewrite users_after_admin_add, Hrow. reflexivity. }
    apply list_find_Some in Hrow as (Hi & Hu & _).
    split; [exact H1|]. rewrite H1. split; [|split].
    + apply list_lookup_insert_eq. eapply lookup_lt_Some, Hi.
    + apply length_insert.
    + unfold users_with. rewrite H1. now apply (filter_insert_same _ _ i u).
Qed.

End AdminAdd.

Lemma demo_digest_not_plain (salt : Z) (plain : string) :
  ("$2b$" +:+ str_of_int salt +:+ "$") +:+ plain <> plain.
Proof.
  apply nonempty_prefix_differs. intros E.
  apply (f_equal String.length) in E. rewrite length_append in E.
  simpl in E. discriminate E.
Qed.

(** A hasher to try the properties on: the salt and the plaintext behind a
    marker. *)
#[local] Instance demo_hasher : Auth.hasher :=
  {| Auth.digest salt plain := ("$2b$" +:+ str_of_int salt +:+ "$") +:+ plain;
     Auth.digest_not_plain := demo_digest_not_plain |}.

Lemma admin_add_creates_or_updates_witness :
  users_with "root@example.org" (snd (admin_add "root@example.org" "hunter2" (demo_world ""))) = 1
  /\ users_with "root@example.org"
       (snd (admin_add "root@example.org" "correct horse"
               (snd (admin_add "root@example.org" "hunter2" (demo_world ""))))) = 1.
Proof.
  destruct (admin_add_creates_or_updates "root@example.org" "hunter2" "correct horse"
              (demo_world "")) as (_ & Hnew & _).
  destruct Hnew as (u & _ & _ & _ & _ & _ & H1 & _ & H2); [reflexivity|].
  split; [exact H1 | exact H2].
Defined.

End CliFacts.

(** ** Lifecycle hooks *)

Module HookFacts.
Import Hooks HookDemo.

Section Runners.
Context {W : Type}.
Implicit Types (h : hook W) (hooks : list (hook W)) (w : W) (p : process W).


Lemma after_cons h hooks w :
  after W (h :: hooks) w = after W hooks (snd (attempt W h w)).
Proof. reflexivity. Qed.



(** A hook that is not catchable stops the loop: it is the last one to run
    and what it raised leaves the runner. *)
Lemma run_hooks_escapes phase hooks1 h hooks2 w log text :
  Forall (catchable W) hooks1 ->
  fst (attempt W h (after W hooks1 w)) = Some (BaseException text) ->
  run_hooks W phase (hooks1 ++ h :: hooks2) w log
  = (Some (BaseException text),
     (after W (hooks1 ++ [h]) w, log ++ failures W phase hooks1 w)).
Proof.
  intros Hc. revert w log.
  induction Hc as [|g hooks1 Hg _ IH]; intros w log Hraise.
  - simpl in *.
    destruct (attempt W h w) as [[[t|t]|] w']; simpl in *; try discriminate.
    injection Hraise as ->. now rewrite app_nil_r.
  - specialize (Hg w). rewrite <- !app_comm_cons, !after_cons in *.
    cbn [run_hooks failures].
    destruct (attempt W g w) as [[[t|t]|] w']; cbn [fst snd] in *.
    + rewrite IH by exact Hraise. now rewrite <- app_assoc.
    + now destruct (Hg t).
    + now apply IH.
Qed.










End Runners.




Lemma run_hooks_escapes_witness :
  run_hooks _ "startup" [note "load"; quitting "bail"; note "never"] [] []
  = (Some (BaseException "1"), (["load"; "bail"], [])).
Proof.
  apply (run_hooks_escapes "startup" [note "load"] (quitting "bail") [note "never"]
           [] [] "1").
  - repeat constructor. intros w text. discriminate.
  - reflexivity.
Defined.

(** A hook that calls [sys.exit] is not contained: the runner stops there
    and lets the exit through. *)
Example quitting_hook_escapes :
  run_startup_hooks _
    {| _startup_hooks := [note "load"; quitting "bail"; note "never"];
       _shutdown_hooks := []; state := []; errors := [] |}
  = (Some (BaseException "1"),
     {| _startup_hooks := [note "load"; quitting "bail"; note "never"];
        _shutdown_hooks := []; state := ["load"; "bail"]; errors := [] |}).
Proof. reflexivity. Qed.

End HookFacts.
